(** * ClientApp: environment resolution and facade construction

    A shallow embedding of the [ClientApp] class of the PureCloud Client App
    SDK (its constructor, the [pcEnvironment] accessor, [about] and
    [_getQueryString]) together with the properties its specification
    states about them.

    Conventions of the embedding:
    - a JavaScript string is a [string]; each character stands for one
      UTF-16 code unit below 256;
    - [null] and [undefined] of a typed slot are [None];
    - [throw] is the [Throw] completion of a small state-and-exception
      monad over the [World] the constructor runs in. *)

From Stdlib Require Import Ascii String.
From stdpp Require Import gmap strings list.

Local Open Scope string_scope.

(** ** JavaScript strings *)

(** The WhiteSpace and LineTerminator code units that [String.prototype.trim]
    strips, among the code units below 256: TAB, LF, VT, FF, CR, SP, NBSP. *)
Definition is_white_space (c : ascii) : bool :=
  let n := nat_of_ascii c in
  (n =? 9)%nat || (n =? 10)%nat || (n =? 11)%nat || (n =? 12)%nat
  || (n =? 13)%nat || (n =? 32)%nat || (n =? 160)%nat.

Fixpoint trim_start (s : string) : string :=
  match s with
  | EmptyString => EmptyString
  | String c s' => if is_white_space c then trim_start s' else s
  end.

Fixpoint trim_end (s : string) : string :=
  match s with
  | EmptyString => EmptyString
  | String c s' =>
      match trim_end s' with
      | EmptyString => if is_white_space c then EmptyString else String c EmptyString
      | t => String c t
      end
  end.

(** [s.trim()] *)
Definition trim (s : string) : string := trim_end (trim_start s).

(** Every code unit of [s] is white space (the empty string included). *)
Fixpoint all_white_space (s : string) : bool :=
  match s with
  | EmptyString => true
  | String c s' => is_white_space c && all_white_space s'
  end.

(** ** JavaScript values *)

#[warnings="-register-all"]
Inductive JsValue : Type :=
| JsUndefined
| JsNull
| JsBoolean (b : bool)
| JsNumber (n : Z)
| JsBigInt (n : Z)
| JsString (s : string)
| JsSymbol
| JsFunction
| JsArray (items : list JsValue)
| JsObject.

(** [typeof v] *)
Definition typeof (v : JsValue) : string :=
  match v with
  | JsUndefined => "undefined"
  | JsNull => "object"
  | JsBoolean _ => "boolean"
  | JsNumber _ => "number"
  | JsBigInt _ => "bigint"
  | JsString _ => "string"
  | JsSymbol => "symbol"
  | JsFunction => "function"
  | JsArray _ => "object"
  | JsObject => "object"
  end.

(** ToBoolean *)
Definition truthy (v : JsValue) : bool :=
  match v with
  | JsUndefined | JsNull => false
  | JsBoolean b => b
  | JsNumber n | JsBigInt n => negb (n =? 0)%Z
  | JsString s => negb (String.eqb s "")
  | JsSymbol | JsFunction | JsArray _ | JsObject => true
  end.

(** ToBoolean of a slot of type [string | null]. *)
Definition truthy_string (o : option string) : bool :=
  match o with
  | Some s => truthy (JsString s)
  | None => false
  end.

(** ** Errors and completions *)

(** [new Error(message)] *)
Record Error : Type := mkError { message : string }.

Inductive Completion (A : Type) : Type :=
| Normal (a : A)
| Throw (e : Error).
Arguments Normal {A} a.
Arguments Throw {A} e.

(** ** The environment utilities ([./utils/env]) *)

(** The [PcEnv] type, with the two fields the class reads. *)
Record PcEnv : Type := mkPcEnv {
  pcEnvTld : string;
  pcAppOrigin : string
}.

(** The default export of [./utils/env], as the class uses it. *)
Record EnvUtils : Type := mkEnvUtils {
  lookupPcEnv : string -> bool -> option PcEnv;
  DEFAULT_PC_ENV : PcEnv
}.

(** ** The constructor's argument *)

Module Cfg.
(** The configuration object.  A field is [None] when the object has no
    own property of that name and [Some v] when it has one holding [v]
    ([v] may be [JsUndefined] or of any other type at run time). *)
Record t : Type := mk {
  pcEnvironmentQueryParam : option JsValue;
  pcEnvironment : option JsValue;
  pcOrigin : option JsValue
}.

(** [{}] *)
Definition empty : t := mk None None None.

(** [cfg.hasOwnProperty(name)] for the three names the constructor asks. *)
Definition hasOwnProperty (field : t -> option JsValue) (cfg : t) : bool :=
  bool_decide (is_Some (field cfg)).

(** [cfg.name]: the own property, or [undefined]. *)
Definition get (field : t -> option JsValue) (cfg : t) : JsValue :=
  default JsUndefined (field cfg).
End Cfg.

(** What a caller passes for [cfg]: nothing (or [undefined]), [null], or an
    object. *)
Inductive CfgArg : Type :=
| ArgUndefined
| ArgNull
| ArgObject (cfg : Cfg.t).

(** ** The page *)

Record Location : Type := mkLocation { search : string }.
Record Window : Type := mkWindow { location : option Location }.

(** ** The capability facades and the world of objects *)

Inductive Api : Type :=
| AlertingApi | LifecycleApi | CoreUiApi | UsersApi
| ConversationsApi | MyConversationsApi | ExternalContactsApi.

(** The object literal [{ targetPcOrigin: ... }]. *)
Record ApiCfg : Type := mkApiCfg { targetPcOrigin : option string }.

(** A reference to an [ApiCfg] object of the heap. *)
Definition ref : Type := nat.

(** Modelled from the spec: the facade classes of [./modules/*] are absent;
    a facade is "constructed with the shared configuration" and is opaque
    beyond that, so an instance records its class and the reference of the
    configuration object it was given. *)
Record Facade : Type := mkFacade { api : Api; cfg_ref : ref }.

Record World : Type := mkWorld {
  window : option Window;
  heap : list ApiCfg;
  instances : list Facade
}.

(** ** The monad of the constructor: state over [World], with exceptions *)

Definition M (A : Type) : Type := World -> Completion A * World.

Definition ret {A} (a : A) : M A := fun w => (Normal a, w).

Definition throw {A} (e : Error) : M A := fun w => (Throw e, w).

Definition bind {A B} (m : M A) (k : A -> M B) : M B :=
  fun w =>
    match m w with
    | (Normal a, w') => k a w'
    | (Throw e, w') => (Throw e, w')
    end.

Notation "x <- m ;; k" := (bind m (fun x => k))
  (at level 100, m at next level, right associativity).

(** Allocation of an object literal. *)
Definition new_object (o : ApiCfg) : M ref :=
  fun w => (Normal (length (heap w)),
            mkWorld (window w) (heap w ++ [o]) (instances w)).

(** [new SomeApi(apiCfg)] *)
Definition new_Api (a : Api) (apiCfg : ref) : M Facade :=
  fun w => let f := mkFacade a apiCfg in
           (Normal f, mkWorld (window w) (heap w) (instances w ++ [f])).

(** ** The query-string library and the instance *)

(** [accumulator[key] = value], or the array of the values seen so far
    (array format "none" of [query-string]). *)
Definition formatter (key : string) (value : JsValue)
    (accumulator : gmap string JsValue) : gmap string JsValue :=
  match accumulator !! key with
  | None => <[key := value]> accumulator
  | Some (JsArray items) => <[key := JsArray (items ++ [value])]> accumulator
  | Some previous => <[key := JsArray [previous; value]]> accumulator
  end.

(** The value of one parameter: [null] when it has no [=]. *)
Definition param_value (v : option string) : JsValue :=
  match v with
  | Some s => JsString s
  | None => JsNull
  end.

(** The instance under construction, with its private fields and its
    seven facades. *)
Record ClientApp : Type := mkClientApp {
  _pcEnv : option PcEnv;
  _customPcOrigin : option string;
  alerting : Facade;
  lifecycle : Facade;
  coreUi : Facade;
  users : Facade;
  conversations : Facade;
  myConversations : Facade;
  externalContacts : Facade
}.

Section ClientApp.

(** [import envUtils from './utils/env'] *)
Variable envUtils : EnvUtils.

(** The lexical layer of [queryString.parse]: the parameters of a query
    string in the order they occur, each with its decoded key and its
    decoded value ([None] for a parameter written without [=]). *)
Variable params : string -> list (string * option string).

(** [queryString.parse(input)]: an object without prototype that maps
    each key to its value, or to the array of its values. *)
Definition parse (input : string) : gmap string JsValue :=
  foldl (fun ret p => formatter p.1 (param_value p.2) ret) ∅ (params input).

(** [static _getQueryString()] *)
Definition _getQueryString : M (option string) :=
  fun w =>
    (Normal match window w with
            | Some win =>
                match location win with
                | Some loc => Some (search loc)
                | None => None
                end
            | None => None
            end, w).

(** [envUtils.lookupPcEnv(value, true)] followed by the test of its
    result, as both environment branches do. *)
Definition lookup_or_throw (value : string) : M (option PcEnv * option string) :=
  match lookupPcEnv envUtils value true with
  | Some env => ret (Some env, None)
  | None =>
      throw (mkError ("Could not parse '" +:+ value
                      +:+ "' into a known PureCloud environment"))
  end.

(** The body of [if (cfg) { ... }] for an object [cfg]: the values of
    [this._pcEnv] and [this._customPcOrigin] when it completes. *)
Definition read_cfg (cfg : Cfg.t) : M (option PcEnv * option string) :=
  if Cfg.hasOwnProperty Cfg.pcEnvironmentQueryParam cfg then
    match Cfg.get Cfg.pcEnvironmentQueryParam cfg with
    | JsString paramName =>
        if (String.length (trim paramName) =? 0)%nat then
          throw (mkError "Invalid query param name provided.  Must be non-null, non-empty string")
        else
          qs <- _getQueryString ;;
          let parsedQueryString := parse (default "" (if truthy_string qs then qs else None)) in
          match parsedQueryString !! paramName with
          | Some (JsString paramValue) =>
              if truthy (JsString paramValue) then lookup_or_throw paramValue
              else
                throw (mkError ("Could not find unique value for " +:+ paramName
                                +:+ " parameter on Query String"))
          | _ =>
              throw (mkError ("Could not find unique value for " +:+ paramName
                              +:+ " parameter on Query String"))
          end
    | _ =>
        throw (mkError "Invalid query param name provided.  Must be non-null, non-empty string")
    end
  else if Cfg.hasOwnProperty Cfg.pcEnvironment cfg then
    match Cfg.get Cfg.pcEnvironment cfg with
    | JsString pcEnvironment =>
        if (String.length (trim pcEnvironment) =? 0)%nat then
          throw (mkError "Invalid pcEnvironment provided.  Must be a non-null, non-empty string")
        else lookup_or_throw pcEnvironment
    | _ =>
        throw (mkError "Invalid pcEnvironment provided.  Must be a non-null, non-empty string")
    end
  else if Cfg.hasOwnProperty Cfg.pcOrigin cfg then
    match Cfg.get Cfg.pcOrigin cfg with
    | JsString pcOrigin =>
        if (String.length (trim pcOrigin) =? 0)%nat then
          throw (mkError "Invalid pcOrigin provided.  Must be a non-null, non-empty string")
        else ret (None, Some pcOrigin)
    | _ =>
        throw (mkError "Invalid pcOrigin provided.  Must be a non-null, non-empty string")
    end
  else ret (None, None).

(** [new ClientApp(cfg)] *)
Definition constructor (arg : CfgArg) : M ClientApp :=
  let cfg := match arg with ArgUndefined => ArgObject Cfg.empty | _ => arg end in
  fields <- match cfg with
            | ArgObject cfg => read_cfg cfg
            | _ => ret (None, None)
            end ;;
  let this_pcEnv :=
    if negb (bool_decide (is_Some fields.1)) && negb (truthy_string fields.2)
    then Some (DEFAULT_PC_ENV envUtils)
    else fields.1 in
  let this_customPcOrigin := fields.2 in
  apiCfg <- new_object
              (mkApiCfg match this_pcEnv with
                        | Some env => Some (pcAppOrigin env)
                        | None => this_customPcOrigin
                        end) ;;
  alerting <- new_Api AlertingApi apiCfg ;;
  lifecycle <- new_Api LifecycleApi apiCfg ;;
  coreUi <- new_Api CoreUiApi apiCfg ;;
  users <- new_Api UsersApi apiCfg ;;
  conversations <- new_Api ConversationsApi apiCfg ;;
  myConversations <- new_Api MyConversationsApi apiCfg ;;
  externalContacts <- new_Api ExternalContactsApi apiCfg ;;
  ret (mkClientApp this_pcEnv this_customPcOrigin alerting lifecycle coreUi
         users conversations myConversations externalContacts).

(** [get pcEnvironment()] *)
Definition pcEnvironment (this : ClientApp) : option string :=
  match _pcEnv this with
  | Some env => Some (pcEnvTld env)
  | None => None
  end.

End ClientApp.

(** The string the constructor hands to [queryString.parse]:
    [ClientApp._getQueryString() || ''] in the world [w]. *)
Definition page_query (w : World) : string :=
  match window w with
  | Some win =>
      match location win with
      | Some loc => search loc
      | None => ""
      end
  | None => ""
  end.

(** The values a query string gives to the parameter [name], in order. *)
Definition values_of (name : string) (ps : list (string * option string))
    : list (option string) :=
  (filter (λ p, p.1 = name) ps).*2.

(** The origin the facades of [this] were given: the [targetPcOrigin] of the
    configuration object that the [alerting] facade refers to. *)
Definition targetOrigin (w : World) (this : ClientApp) : option string :=
  match heap w !! cfg_ref (alerting this) with
  | Some apiCfg => targetPcOrigin apiCfg
  | None => None
  end.

(** The descriptors the environment utilities hand out: the default one and
    the results of lookups. *)
Definition catalog_descriptor (envUtils : EnvUtils) (env : PcEnv) : Prop :=
  env = DEFAULT_PC_ENV envUtils
  ∨ ∃ value fuzzy, lookupPcEnv envUtils value fuzzy = Some env.

(** The seven facades, in the order the constructor creates them, all on
    the configuration object [r]. *)
Definition facade_set (r : ref) : list Facade :=
  [mkFacade AlertingApi r; mkFacade LifecycleApi r; mkFacade CoreUiApi r;
   mkFacade UsersApi r; mkFacade ConversationsApi r;
   mkFacade MyConversationsApi r; mkFacade ExternalContactsApi r].

(** The facades held by the fields of an instance. *)
Definition facades_of (this : ClientApp) : list Facade :=
  [alerting this; lifecycle this; coreUi this; users this;
   conversations this; myConversations this; externalContacts this].

(** ** Static introspection *)

Section Build.

(** The constants the bundler substitutes at build time. *)
Variables __PACKAGE_NAME__ __PACKAGE_VERSION__ : string.

(** [static get version()] *)
Definition version : string := __PACKAGE_VERSION__.

(** [static about()] *)
Definition about : string := __PACKAGE_NAME__ +:+ "v" +:+ __PACKAGE_VERSION__.

End Build.

(** ** Instances used to run the constructor on concrete pages *)

Module Sample.

(** Modelled from the spec: the catalog of [./utils/env] is absent; it is
    "a static, read-only table mapping short environment identifiers to
    full host origins".  Longer identifiers come first, so that a fuzzy
    match picks the most specific one. *)
Definition PC_ENVS : list PcEnv :=
  [mkPcEnv "mypurecloud.com.au" "https://apps.mypurecloud.com.au";
   mkPcEnv "mypurecloud.com" "https://apps.mypurecloud.com";
   mkPcEnv "mypurecloud.ie" "https://apps.mypurecloud.ie";
   mkPcEnv "mypurecloud.jp" "https://apps.mypurecloud.jp";
   mkPcEnv "mypurecloud.de" "https://apps.mypurecloud.de"].

Definition to_lower_ascii (c : ascii) : ascii :=
  let n := nat_of_ascii c in
  if (65 <=? n)%nat && (n <=? 90)%nat then ascii_of_nat (n + 32) else c.

Fixpoint to_lower (s : string) : string :=
  match s with
  | EmptyString => EmptyString
  | String c s' => String (to_lower_ascii c) (to_lower s')
  end.

(** Modelled from the spec: [lookup(identifierOrOrigin, fuzzy)] of the
    absent [./utils/env].  The exact mode "matches only an exact
    identifier string"; the fuzzy mode is case-insensitive and accepts "a
    full origin containing the identifier as a substring".  The spec
    leaves the list of regional prefixes and aliases open, so none is
    modelled. *)
Definition lookupPcEnv (value : string) (fuzzy : bool) : option PcEnv :=
  if fuzzy then
    List.find (λ env, bool_decide (is_Some (index 0 (pcEnvTld env) (to_lower value))))
      PC_ENVS
  else
    List.find (λ env, String.eqb (pcEnvTld env) value) PC_ENVS.

(** Modelled from the spec: "one designated default EnvironmentDescriptor". *)
Definition DEFAULT_PC_ENV : PcEnv :=
  mkPcEnv "mypurecloud.com" "https://apps.mypurecloud.com".

Definition envUtils : EnvUtils := mkEnvUtils lookupPcEnv DEFAULT_PC_ENV.

(** [s.split(sep)] for a one-character separator. *)
Fixpoint split (sep : ascii) (s : string) : list string :=
  match s with
  | EmptyString => [EmptyString]
  | String c s' =>
      let rest := split sep s' in
      if Ascii.eqb c sep then EmptyString :: rest
      else match rest with
           | piece :: pieces => String c piece :: pieces
           | [] => [String c EmptyString]
           end
  end.

(** [s.replace(/\+/g, ' ')] *)
Fixpoint plus_to_space (s : string) : string :=
  match s with
  | EmptyString => EmptyString
  | String c s' =>
      String (if Ascii.eqb c "+"%char then " "%char else c) (plus_to_space s')
  end.

(** A parameter cut at its first [=]. *)
Fixpoint split_on_first (sep : ascii) (s : string) : string * option string :=
  match s with
  | EmptyString => (EmptyString, None)
  | String c s' =>
      if Ascii.eqb c sep then (EmptyString, Some s')
      else let r := split_on_first sep s' in (String c r.1, r.2)
  end.

(** [s.replace(/^[?#&]/, '')] *)
Definition strip_leading (s : string) : string :=
  match s with
  | String c s' =>
      if Ascii.eqb c "?"%char || Ascii.eqb c "#"%char || Ascii.eqb c "&"%char
      then s' else s
  | EmptyString => EmptyString
  end.

(** The lexical layer of [queryString.parse] on query strings that carry
    no percent escape: trim, drop one leading [?], [#] or [&], cut at
    every [&], read [+] as a space and cut each parameter at its first
    [=]. *)
Definition params (input : string) : list (string * option string) :=
  let input := strip_leading (trim input) in
  if String.eqb input "" then []
  else (λ param, split_on_first "="%char (plus_to_space param)) <$> split "&"%char input.

(** A page whose address ends in the query string [q], with nothing
    allocated yet. *)
Definition page (q : string) : World :=
  mkWorld (Some (mkWindow (Some (mkLocation q)))) [] [].

End Sample.

(** ** Definitions used to state and prove the properties *)

(** What one more value does to the entry of its key. *)
Definition merge (current : option JsValue) (value : JsValue) : option JsValue :=
  Some match current with
       | None => value
       | Some (JsArray items) => JsArray (items ++ [value])
       | Some previous => JsArray [previous; value]
       end.

(** The caller supplies none of the three options. *)
Definition no_mode_option (arg : CfgArg) : Prop :=
  match arg with
  | ArgObject cfg =>
      Cfg.pcEnvironmentQueryParam cfg = None
      /\ Cfg.pcEnvironment cfg = None
      /\ Cfg.pcOrigin cfg = None
  | _ => True
  end.

(** The instance and the world the constructor ends with, once the
    configuration has given [fields] to [this._pcEnv] and
    [this._customPcOrigin]. *)
Definition complete (envUtils : EnvUtils) (fields : option PcEnv * option string)
    (w : World) : ClientApp * World :=
  let this_pcEnv :=
    if negb (bool_decide (is_Some fields.1)) && negb (truthy_string fields.2)
    then Some (DEFAULT_PC_ENV envUtils)
    else fields.1 in
  let r := length (heap w) in
  (mkClientApp this_pcEnv fields.2
     (mkFacade AlertingApi r) (mkFacade LifecycleApi r) (mkFacade CoreUiApi r)
     (mkFacade UsersApi r) (mkFacade ConversationsApi r)
     (mkFacade MyConversationsApi r) (mkFacade ExternalContactsApi r),
   mkWorld (window w)
     (heap w ++ [mkApiCfg match this_pcEnv with
                          | Some env => Some (pcAppOrigin env)
                          | None => fields.2
                          end])
     (instances w ++ facade_set r)).

Section QueryParam.

Variable envUtils : EnvUtils.
Variable params : string -> list (string * option string).

(** The query-param branch, for a name that passed the blank test. *)
Definition read_query_param (paramName : string) : M (option PcEnv * option string) :=
  fun w =>
    match parse params (page_query w) !! paramName with
    | Some (JsString paramValue) =>
        if truthy (JsString paramValue) then lookup_or_throw envUtils paramValue w
        else (Throw (mkError ("Could not find unique value for " +:+ paramName
                              +:+ " parameter on Query String")), w)
    | _ => (Throw (mkError ("Could not find unique value for " +:+ paramName
                            +:+ " parameter on Query String")), w)
    end.

End QueryParam.

(** ** The manifest script ([scripts/create-manifest.js]) *)

(** [s.substring(n)] *)
Fixpoint drop_string (n : nat) (s : string) : string :=
  match n, s with
  | O, _ => s
  | S n', String _ s' => drop_string n' s'
  | S _, EmptyString => EmptyString
  end.

(** [s.replace(pattern, replacement)] for a string pattern and a
    replacement without dollar sign: only the first occurrence of the
    pattern is replaced. *)
Fixpoint replace_first (pattern replacement s : string) : string :=
  if String.prefix pattern s
  then replacement +:+ drop_string (String.length pattern) s
  else match s with
       | EmptyString => EmptyString
       | String c s' => String c (replace_first pattern replacement s')
       end.

(** [pattern] occurs somewhere in [s]. *)
Fixpoint occurs (pattern s : string) : bool :=
  String.prefix pattern s
  || match s with
     | EmptyString => false
     | String _ s' => occurs pattern s'
     end.

Module CreateManifest.

(** One element of [indexFiles]. *)
Record IndexFile : Type := mkIndexFile { file : string }.

(** The object handed to [fs.outputJSONSync]. *)
Record Manifest : Type := mkManifest {
  name : string;
  version : string;
  build : string;
  buildDate : string;
  indexFiles : list IndexFile
}.

(** What the script reads and writes: the environment variables, the
    instant [new Date().toISOString()] yields, the html files that the glob
    finds under the examples directory (in the order it returns them), and
    the JSON files written so far, by path. *)
Record Process : Type := mkProcess {
  env : gmap string string;
  now : string;
  examples_html : list string;
  json_files : gmap string Manifest
}.

Section Script.

(** [path.join(__dirname, "../dist-examples/manifest.json")] *)
Variable manifest_path : string.

(** The arrow function given to [map]. *)
Definition index_file (file : string) : IndexFile :=
  mkIndexFile (replace_first "examples/" "" file).

(** The whole script. *)
Definition create_manifest (p : Process) : Completion unit * Process :=
  let WEB_APP_NAME := env p !! "WEB_APP_NAME" in
  let WEB_APP_VERSION := env p !! "WEB_APP_VERSION" in
  let BUILD_NUMBER := env p !! "BUILD_NUMBER" in
  if negb (truthy_string WEB_APP_NAME) then
    (Throw (mkError "WEB_APP_NAME environment variable not set"), p)
  else if negb (truthy_string WEB_APP_VERSION) then
    (Throw (mkError "WEB_APP_VERSION environment variable not set"), p)
  else if negb (truthy_string BUILD_NUMBER) then
    (Throw (mkError "BUILD_NUMBER environment variable not set"), p)
  else
    let manifest :=
      mkManifest (default "" WEB_APP_NAME) (default "" WEB_APP_VERSION)
        (default "" BUILD_NUMBER) (now p)
        (index_file <$> examples_html p) in
    (Normal tt,
     mkProcess (env p) (now p) (examples_html p)
       (<[manifest_path := manifest]> (json_files p))).

End Script.

(** The variables the script requires, in the order it tests them. *)
Definition required : list string :=
  ["WEB_APP_NAME"; "WEB_APP_VERSION"; "BUILD_NUMBER"].

(** The first required variable that is unset or empty, if any. *)
Definition first_unset (env : gmap string string) : option string :=
  List.find (λ var, negb (truthy_string (env !! var))) required.

(** A build with the three variables set and two html files, one of them
    in a nested directory that is itself called [examples]. *)
Definition example_build : Process :=
  mkProcess
    (<["BUILD_NUMBER" := "17"]>
       (<["WEB_APP_VERSION" := "1.4.0"]>
          (<["WEB_APP_NAME" := "client-app-sdk"]> ∅)))
    "2019-03-01T10:00:00.000Z"
    ["examples/index.html"; "examples/toast/examples/basic.html"] ∅.

End CreateManifest.

(** ** Errors of the constructor *)

(** The five messages the constructor can throw with. *)
Inductive constructor_error : string -> Prop :=
| invalid_query_param :
    constructor_error
      "Invalid query param name provided.  Must be non-null, non-empty string"
| invalid_pcEnvironment :
    constructor_error
      "Invalid pcEnvironment provided.  Must be a non-null, non-empty string"
| invalid_pcOrigin :
    constructor_error
      "Invalid pcOrigin provided.  Must be a non-null, non-empty string"
| unknown_environment value :
    constructor_error
      ("Could not parse '" +:+ value +:+ "' into a known PureCloud environment")
| no_unique_value paramName :
    constructor_error
      ("Could not find unique value for " +:+ paramName
       +:+ " parameter on Query String").

(** What reading the configuration yields in the world [w]: the two
    private fields, or the error thrown. *)
Definition resolution (envUtils : EnvUtils)
    (params : string -> list (string * option string))
    (arg : CfgArg) (w : World) : Completion (option PcEnv * option string) :=
  match arg with
  | ArgObject cfg => (read_cfg envUtils params cfg w).1
  | _ => Normal (None, None)
  end.

(** * Properties *)

(** ** Trimming *)

Lemma trim_end_keeps_head c s :
  is_white_space c = false -> trim_end (String c s) <> EmptyString.
Proof.
  intros Hc. simpl. destruct (trim_end s); [rewrite Hc|]; discriminate.
Qed.

Lemma trim_start_all_white_space s :
  all_white_space s = true -> trim_start s = EmptyString.
Proof.
  induction s as [|c s IH]; simpl; [done|].
  destruct (is_white_space c); simpl; [exact IH | discriminate].
Qed.

Lemma trim_start_not_all_white_space s :
  all_white_space s = false ->
  exists c s', trim_start s = String c s' /\ is_white_space c = false.
Proof.
  induction s as [|c s IH]; simpl; [discriminate|].
  destruct (is_white_space c) eqn:Hc; simpl; [exact IH|].
  intros _. by exists c, s.
Qed.

(** The constructor's test [s.trim().length === 0] holds exactly of the
    strings made of white space only. *)
Lemma blank_test s :
  (String.length (trim s) =? 0)%nat = all_white_space s.
Proof.
  unfold trim. destruct (all_white_space s) eqn:Hs.
  - by rewrite (trim_start_all_white_space s Hs).
  - destruct (trim_start_not_all_white_space s Hs) as (c & s' & -> & Hc).
    pose proof (trim_end_keeps_head c s' Hc) as Hne.
    destruct (trim_end (String c s')); [done|reflexivity].
Qed.

Lemma not_all_white_space_truthy s :
  all_white_space s = false -> truthy (JsString s) = true.
Proof. by destruct s. Qed.

(** ** The parsed query string *)

Lemma formatter_lookup_eq key value (acc : gmap string JsValue) :
  formatter key value acc !! key = merge (acc !! key) value.
Proof.
  unfold formatter, merge.
  destruct (acc !! key) as [[]|]; by rewrite lookup_insert_eq.
Qed.

Lemma formatter_lookup_ne key key' value (acc : gmap string JsValue) :
  key <> key' -> formatter key value acc !! key' = acc !! key'.
Proof.
  intros Hne. unfold formatter.
  destruct (acc !! key) as [[]|]; by rewrite lookup_insert_ne.
Qed.

Lemma foldl_formatter_lookup name ps (acc : gmap string JsValue) :
  foldl (fun ret p => formatter p.1 (param_value p.2) ret) acc ps !! name
  = foldl merge (acc !! name) (param_value <$> values_of name ps).
Proof.
  unfold values_of.
  induction ps as [|[key value] ps IH] in acc |- *; [done|].
  simpl. rewrite IH. rewrite filter_cons. simpl.
  destruct (decide (key = name)) as [->|Hne]; simpl.
  - by rewrite formatter_lookup_eq.
  - by rewrite formatter_lookup_ne.
Qed.

Lemma foldl_merge_array items values :
  foldl merge (Some (JsArray items)) values = Some (JsArray (items ++ values)).
Proof.
  induction values as [|v values IH] in items |- *; simpl.
  - by rewrite app_nil_r.
  - change (merge (Some (JsArray items)) v) with (Some (JsArray (items ++ [v]))).
    rewrite IH. by rewrite <- app_assoc.
Qed.

Section Parse.

Variable params : string -> list (string * option string).

(** A parameter that does not occur has no entry. *)
Lemma parse_absent input name :
  values_of name (params input) = [] -> parse params input !! name = None.
Proof.
  intros H. unfold parse. rewrite foldl_formatter_lookup, H. simpl.
  apply lookup_empty.
Qed.

(** A parameter that occurs once has its value as entry. *)
Lemma parse_single input name value :
  values_of name (params input) = [value] ->
  parse params input !! name = Some (param_value value).
Proof.
  intros H. unfold parse. rewrite foldl_formatter_lookup, H. simpl.
  by rewrite lookup_empty.
Qed.

(** A parameter that occurs more than once has the array of its values
    as entry. *)
Lemma parse_repeated input name :
  (2 <= length (values_of name (params input)))%nat ->
  parse params input !! name
  = Some (JsArray (param_value <$> values_of name (params input))).
Proof.
  intros H. unfold parse. rewrite foldl_formatter_lookup.
  destruct (values_of name (params input)) as [|v1 [|v2 values]];
    simpl in H; [lia|lia|].
  simpl. rewrite lookup_empty. simpl.
  destruct v1; apply (foldl_merge_array [_; _]).
Qed.

End Parse.

(** ** Running the constructor *)


Section Run.

Variable envUtils : EnvUtils.
Variable params : string -> list (string * option string).

Lemma constructor_fields (fields : M (option PcEnv * option string)) arg w :
  fields = match match arg with ArgUndefined => ArgObject Cfg.empty | _ => arg end with
           | ArgObject cfg => read_cfg envUtils params cfg
           | _ => ret (None, None)
           end ->
  constructor envUtils params arg w
  = match fields w with
    | (Normal f, w') => (Normal (complete envUtils f w').1, (complete envUtils f w').2)
    | (Throw e, w') => (Throw e, w')
    end.
Proof.
  intros ->. unfold constructor, bind at 1.
  match goal with |- context [match ?m w with _ => _ end] => destruct (m w) as [[f|e] w'] end;
    [|done].
  unfold bind, new_object, new_Api, ret, complete, facade_set. simpl.
  by rewrite <- !app_assoc.
Qed.

Lemma constructor_object cfg w :
  constructor envUtils params (ArgObject cfg) w
  = match read_cfg envUtils params cfg w with
    | (Normal f, w') => (Normal (complete envUtils f w').1, (complete envUtils f w').2)
    | (Throw e, w') => (Throw e, w')
    end.
Proof. by apply (constructor_fields (read_cfg envUtils params cfg)). Qed.

Lemma constructor_no_object arg w :
  arg = ArgUndefined \/ arg = ArgNull ->
  constructor envUtils params arg w
  = (Normal (complete envUtils (None, None) w).1, (complete envUtils (None, None) w).2).
Proof.
  intros [-> | ->].
  - by rewrite (constructor_fields (read_cfg envUtils params Cfg.empty)).
  - by rewrite (constructor_fields (ret (None, None))).
Qed.

Lemma lookup_or_throw_world value w :
  (lookup_or_throw envUtils value w).2 = w.
Proof. unfold lookup_or_throw. by destruct (lookupPcEnv envUtils value true). Qed.

Lemma getQueryString_or_empty w :
  default "" (if truthy_string (match window w with
                                | Some win => match location win with
                                              | Some loc => Some (search loc)
                                              | None => None
                                              end
                                | None => None
                                end)
              then (match window w with
                    | Some win => match location win with
                                  | Some loc => Some (search loc)
                                  | None => None
                                  end
                    | None => None
                    end)
              else None)
  = page_query w.
Proof.
  unfold page_query. destruct (window w) as [[[[[|c s]]|]]|]; reflexivity.
Qed.


Lemma read_cfg_query_param cfg paramName w :
  Cfg.pcEnvironmentQueryParam cfg = Some (JsString paramName) ->
  read_cfg envUtils params cfg w
  = if all_white_space paramName
    then (Throw (mkError "Invalid query param name provided.  Must be non-null, non-empty string"), w)
    else read_query_param envUtils params paramName w.
Proof.
  intros H. unfold read_cfg, Cfg.hasOwnProperty, Cfg.get. rewrite H. simpl.
  rewrite blank_test. destruct (all_white_space paramName); [done|].
  unfold bind, _getQueryString, read_query_param.
  rewrite getQueryString_or_empty.
  destruct (parse params (page_query w) !! paramName) as [[]|]; try reflexivity.
  simpl. by destruct (negb _).
Qed.

Lemma read_cfg_world cfg w : (read_cfg envUtils params cfg w).2 = w.
Proof.
  destruct cfg as [[qp|] env origin].
  - destruct qp; try reflexivity.
    rewrite (read_cfg_query_param _ s) by done.
    destruct (all_white_space s); [done|]. unfold read_query_param.
    destruct (parse params (page_query w) !! s) as [[]|]; try reflexivity.
    destruct (truthy _); [apply lookup_or_throw_world|done].
  - unfold read_cfg, Cfg.hasOwnProperty, Cfg.get. simpl.
    destruct env as [env|]; simpl.
    + destruct env; try reflexivity.
      destruct (_ =? _)%nat; [done|apply lookup_or_throw_world].
    + destruct origin as [origin|]; simpl; [|done].
      destruct origin; try reflexivity. by destruct (_ =? _)%nat.
Qed.

End Run.

Section Resolution.

Variable envUtils : EnvUtils.
Variable params : string -> list (string * option string).

Lemma lookup_or_throw_normal value w f w' :
  lookup_or_throw envUtils value w = (Normal f, w') ->
  exists env, f = (Some env, None) /\ lookupPcEnv envUtils value true = Some env.
Proof.
  unfold lookup_or_throw.
  destruct (lookupPcEnv envUtils value true) as [env|] eqn:E; [|discriminate].
  intros [= <- _]. by exists env.
Qed.

(** What the configuration leaves in the two private fields when reading
    it completes: a descriptor found by a fuzzy lookup, or the verbatim
    [pcOrigin] of the origin branch, or nothing. *)
Lemma read_cfg_normal cfg w f w' :
  read_cfg envUtils params cfg w = (Normal f, w') ->
  (exists env value, f = (Some env, None)
                     /\ lookupPcEnv envUtils value true = Some env)
  \/ (exists origin, f = (None, Some origin)
                     /\ Cfg.pcEnvironmentQueryParam cfg = None
                     /\ Cfg.pcEnvironment cfg = None
                     /\ Cfg.pcOrigin cfg = Some (JsString origin)
                     /\ all_white_space origin = false)
  \/ (f = (None, None)
      /\ Cfg.pcEnvironmentQueryParam cfg = None
      /\ Cfg.pcEnvironment cfg = None
      /\ Cfg.pcOrigin cfg = None).
Proof.
  destruct cfg as [[qp|] env origin].
  - destruct qp; try discriminate.
    rewrite (read_cfg_query_param _ _ _ s) by done.
    destruct (all_white_space s); [discriminate|]. unfold read_query_param.
    destruct (parse params (page_query w) !! s) as [[]|]; try discriminate.
    destruct (truthy _); [|discriminate].
    intros (e & -> & He)%lookup_or_throw_normal. left. by exists e, s0.
  - unfold read_cfg, Cfg.hasOwnProperty, Cfg.get. simpl.
    destruct env as [env|]; simpl.
    + destruct env; try discriminate.
      destruct (_ =? _)%nat; [discriminate|].
      intros (e & -> & He)%lookup_or_throw_normal. left. by exists e, s.
    + destruct origin as [origin|]; simpl.
      * destruct origin; try discriminate.
        rewrite blank_test. destruct (all_white_space s) eqn:Hs; [discriminate|].
        intros [= <- _]. right; left. by exists s.
      * intros [= <- _]. by right; right.
Qed.

Lemma targetOrigin_complete f w :
  targetOrigin (complete envUtils f w).2 (complete envUtils f w).1
  = match _pcEnv (complete envUtils f w).1 with
    | Some env => Some (pcAppOrigin env)
    | None => f.2
    end.
Proof.
  unfold targetOrigin, complete. simpl.
  by rewrite list_lookup_middle.
Qed.

Lemma constructor_normal arg w this w' :
  constructor envUtils params arg w = (Normal this, w') ->
  exists f,
    this = (complete envUtils f w).1 /\ w' = (complete envUtils f w).2
    /\ match arg with
       | ArgObject cfg => read_cfg envUtils params cfg w = (Normal f, w)
       | _ => f = (None, None)
       end.
Proof.
  destruct arg as [| |cfg].
  - rewrite constructor_no_object by auto. intros [= <- <-]. by exists (None, None).
  - rewrite constructor_no_object by auto. intros [= <- <-]. by exists (None, None).
  - rewrite constructor_object.
    pose proof (read_cfg_world envUtils params cfg w) as Hw.
    destruct (read_cfg envUtils params cfg w) as [[f|e] w1]; [|discriminate].
    simpl in Hw. subst w1. intros [= <- <-]. by exists f.
Qed.

End Resolution.

Lemma Sample_origins_nonempty env :
  catalog_descriptor Sample.envUtils env -> pcAppOrigin env <> "".
Proof.
  intros [->|(value & fuzzy & Hfind)]; [discriminate|].
  assert (In env Sample.PC_ENVS) as Hin.
  { simpl in Hfind. unfold Sample.lookupPcEnv in Hfind.
    destruct fuzzy; by apply List.find_some in Hfind as [? _]. }
  simpl in Hin. by destruct Hin as [<-|[<-|[<-|[<-|[<-|[]]]]]].
Qed.

(** ** The claims *)

(** C1.  Whenever construction succeeds, the [targetPcOrigin] handed to the
    facades is a non-empty string with exactly one source: either
    [this._pcEnv] holds a catalog descriptor, [this._customPcOrigin] is
    null and the target is that descriptor's [pcAppOrigin]; or
    [this._pcEnv] is null, [this._customPcOrigin] holds the caller's
    [pcOrigin] and the target is that string.  The catalog itself is not
    part of the class; its origins are taken to be non-empty. *)
Theorem target_origin_has_one_source envUtils params arg w this w' :
  (forall env, catalog_descriptor envUtils env -> pcAppOrigin env <> "") ->
  constructor envUtils params arg w = (Normal this, w') ->
  exists origin,
    targetOrigin w' this = Some origin
    /\ origin <> ""
    /\ ((exists env, catalog_descriptor envUtils env
                     /\ _pcEnv this = Some env
                     /\ _customPcOrigin this = None
                     /\ origin = pcAppOrigin env)
        \/ (exists cfg, arg = ArgObject cfg
                        /\ Cfg.pcOrigin cfg = Some (JsString origin)
                        /\ _pcEnv this = None
                        /\ _customPcOrigin this = Some origin)).
Proof.
  intros Hcat (f & -> & -> & Hf)%constructor_normal.
  assert ((exists env value, f = (Some env, None)
                             /\ lookupPcEnv envUtils value true = Some env)
          \/ (exists cfg origin, arg = ArgObject cfg /\ f = (None, Some origin)
                /\ Cfg.pcOrigin cfg = Some (JsString origin)
                /\ all_white_space origin = false)
          \/ f = (None, None)) as Hcases.
  { destruct arg as [| |cfg]; [by right; right|by right; right|].
    apply read_cfg_normal in Hf as [?|[(o & ? & ? & ? & ? & ?)|[? _]]]; [by left| |by right; right].
    right; left. by exists cfg, o. }
  rewrite targetOrigin_complete.
  destruct Hcases as [(env & value & -> & Hl)|[(cfg & origin & -> & -> & Ho & Hb)| ->]].
  - assert (catalog_descriptor envUtils env) as Hd by (right; eauto).
    exists (pcAppOrigin env). simpl. split_and!; [done|by apply Hcat|].
    left. by exists env.
  - pose proof (not_all_white_space_truthy origin Hb) as Ht.
    exists origin. unfold complete. simpl in *. rewrite Ht. simpl. split_and!; [done| |].
    + intros ->. discriminate.
    + right. by exists cfg.
  - assert (catalog_descriptor envUtils (DEFAULT_PC_ENV envUtils)) as Hd by by left.
    exists (pcAppOrigin (DEFAULT_PC_ENV envUtils)). simpl.
    split_and!; [done|by apply Hcat|].
    left. by exists (DEFAULT_PC_ENV envUtils).
Qed.

Lemma target_origin_has_one_source_witness :
  exists this w',
    constructor Sample.envUtils Sample.params
      (ArgObject (Cfg.mk None (Some (JsString "mypurecloud.jp")) None))
      (Sample.page "") = (Normal this, w')
    /\ exists origin,
        targetOrigin w' this = Some origin
        /\ origin <> ""
        /\ ((exists env, catalog_descriptor Sample.envUtils env
                         /\ _pcEnv this = Some env
                         /\ _customPcOrigin this = None
                         /\ origin = pcAppOrigin env)
            \/ (exists cfg,
                   ArgObject (Cfg.mk None (Some (JsString "mypurecloud.jp")) None)
                   = ArgObject cfg
                   /\ Cfg.pcOrigin cfg = Some (JsString origin)
                   /\ _pcEnv this = None
                   /\ _customPcOrigin this = Some origin)).
Proof.
  eexists. eexists. split; [vm_compute; reflexivity|].
  apply (target_origin_has_one_source Sample.envUtils Sample.params
           (ArgObject (Cfg.mk None (Some (JsString "mypurecloud.jp")) None))
           (Sample.page ""));
    [exact Sample_origins_nonempty | vm_compute; reflexivity].
Defined.


(** C3.  With [pcOrigin] as the option in force (neither of the two keys
    of higher priority is present) and holding a string that is not all
    white space, construction succeeds, the target origin is that very
    string, [pcEnvironment] reads null, and the outcome is the same
    whatever the environment utilities would answer: the catalog is not
    consulted. *)
Theorem explicit_origin_verbatim envUtils params cfg origin w :
  Cfg.pcEnvironmentQueryParam cfg = None ->
  Cfg.pcEnvironment cfg = None ->
  Cfg.pcOrigin cfg = Some (JsString origin) ->
  all_white_space origin = false ->
  exists this w',
    constructor envUtils params (ArgObject cfg) w = (Normal this, w')
    /\ targetOrigin w' this = Some origin
    /\ pcEnvironment this = None
    /\ forall envUtils',
        constructor envUtils' params (ArgObject cfg) w = (Normal this, w').
Proof.
  intros Hq He Ho Hb. destruct cfg as [q e o]. simpl in *. subst.
  pose proof (not_all_white_space_truthy origin Hb) as Ht.
  assert (forall eu, read_cfg eu params (Cfg.mk None None (Some (JsString origin))) w
                     = (Normal (None, Some origin), w)) as Hread.
  { intros eu. unfold read_cfg, Cfg.hasOwnProperty, Cfg.get. simpl.
    by rewrite blank_test, Hb. }
  assert (forall eu, complete eu (None, Some origin) w
                     = complete envUtils (None, Some origin) w) as Hsame.
  { intros eu. unfold complete. simpl in *. by rewrite Ht. }
  eexists _, _. split_and!.
  - rewrite constructor_object, Hread. reflexivity.
  - rewrite targetOrigin_complete. unfold complete. simpl in *. by rewrite Ht.
  - unfold pcEnvironment, complete. simpl in *. by rewrite Ht.
  - intros eu. by rewrite constructor_object, Hread, Hsame.
Qed.

Lemma explicit_origin_verbatim_witness :
  exists this w',
    constructor Sample.envUtils Sample.params
      (ArgObject (Cfg.mk None None (Some (JsString "https://example-host.test"))))
      (Sample.page "") = (Normal this, w')
    /\ targetOrigin w' this = Some "https://example-host.test"
    /\ pcEnvironment this = None
    /\ forall envUtils',
        constructor envUtils' Sample.params
          (ArgObject (Cfg.mk None None (Some (JsString "https://example-host.test"))))
          (Sample.page "") = (Normal this, w').
Proof.
  apply (explicit_origin_verbatim Sample.envUtils Sample.params
           (Cfg.mk None None (Some (JsString "https://example-host.test")))
           "https://example-host.test" (Sample.page "")); reflexivity.
Defined.

(** C4.  Construction is all or nothing.  Either reading the configuration
    completes (or there is no configuration object to read), and then the
    constructor completes and the world has gained exactly one
    configuration object and exactly the seven facades (alerting,
    lifecycle, coreUi, users, conversations, myConversations,
    externalContacts), each built on that one object and each held by its
    field of the instance; or reading the configuration throws, the
    constructor throws that same error, and the world is left as it was:
    no configuration object and no facade has been created. *)
Theorem constructor_atomic envUtils params arg w :
  (exists this apiCfg,
      match arg with
      | ArgObject cfg =>
          exists fields, read_cfg envUtils params cfg w = (Normal fields, w)
      | _ => True
      end
      /\ constructor envUtils params arg w
         = (Normal this,
            mkWorld (window w) (heap w ++ [apiCfg])
              (instances w ++ facade_set (length (heap w))))
      /\ facades_of this = facade_set (length (heap w)))
  \/ (exists cfg e,
        arg = ArgObject cfg
        /\ read_cfg envUtils params cfg w = (Throw e, w)
        /\ constructor envUtils params arg w = (Throw e, w)).
Proof.
  assert (forall f,
            exists this apiCfg,
              (Normal (complete envUtils f w).1, (complete envUtils f w).2)
              = (Normal this,
                 mkWorld (window w) (heap w ++ [apiCfg])
                   (instances w ++ facade_set (length (heap w))))
              /\ facades_of this = facade_set (length (heap w))) as Hdone.
  { intros f. eexists _, _. split; reflexivity. }
  destruct arg as [| |cfg].
  - left. rewrite constructor_no_object by auto.
    destruct (Hdone (None, None)) as (this & apiCfg & H1 & H2).
    by exists this, apiCfg.
  - left. rewrite constructor_no_object by auto.
    destruct (Hdone (None, None)) as (this & apiCfg & H1 & H2).
    by exists this, apiCfg.
  - rewrite constructor_object.
    pose proof (read_cfg_world envUtils params cfg w) as Hw.
    destruct (read_cfg envUtils params cfg w) as [[f|e] w1] eqn:Hr;
      simpl in Hw; subst w1.
    + left. destruct (Hdone f) as (this & apiCfg & H1 & H2).
      exists this, apiCfg. split; [by exists f|done].
    + right. by exists cfg, e.
Qed.

(** C5, as stated, fails for a parameter name made of white space: on the
    page [?+=mypurecloud.com] the parameter named by one space occurs
    exactly once and its value matches a known environment, yet the
    constructor rejects the name before it reads the query string. *)
Lemma query_param_blank_name_rejected :
  values_of " " (Sample.params (page_query (Sample.page "?+=mypurecloud.com")))
  = [Some "mypurecloud.com"]
  /\ lookupPcEnv Sample.envUtils "mypurecloud.com" true
     = Some (mkPcEnv "mypurecloud.com" "https://apps.mypurecloud.com")
  /\ constructor Sample.envUtils Sample.params
       (ArgObject (Cfg.mk (Some (JsString " ")) None None))
       (Sample.page "?+=mypurecloud.com")
     = (Throw (mkError "Invalid query param name provided.  Must be non-null, non-empty string"),
        Sample.page "?+=mypurecloud.com").
Proof. split_and!; vm_compute; reflexivity. Qed.

(** C5, amended.  In query-param mode, for a parameter name that is not all
    white space, that occurs exactly once in the page's query string, with
    a non-empty value that the fuzzy lookup maps to a catalog descriptor,
    construction succeeds, [this._pcEnv] is that descriptor and the target
    origin is its [pcAppOrigin]. *)
Theorem query_param_single_value envUtils params cfg paramName paramValue env w :
  Cfg.pcEnvironmentQueryParam cfg = Some (JsString paramName) ->
  all_white_space paramName = false ->
  values_of paramName (params (page_query w)) = [Some paramValue] ->
  paramValue <> "" ->
  lookupPcEnv envUtils paramValue true = Some env ->
  exists this w',
    constructor envUtils params (ArgObject cfg) w = (Normal this, w')
    /\ _pcEnv this = Some env
    /\ targetOrigin w' this = Some (pcAppOrigin env).
Proof.
  intros Hq Hb Hv Hne Hl.
  assert (read_cfg envUtils params cfg w = (Normal (Some env, None), w)) as Hread.
  { rewrite (read_cfg_query_param _ _ _ paramName), Hb by done.
    unfold read_query_param. rewrite (parse_single _ _ _ _ Hv). simpl.
    destruct paramValue; [done|]. simpl. unfold lookup_or_throw. by rewrite Hl. }
  eexists _, _. split_and!.
  - rewrite constructor_object, Hread. reflexivity.
  - reflexivity.
  - by rewrite targetOrigin_complete.
Qed.

Lemma query_param_single_value_witness :
  exists this w',
    constructor Sample.envUtils Sample.params
      (ArgObject (Cfg.mk (Some (JsString "pcEnvironment")) None None))
      (Sample.page "?pcEnvironment=mypurecloud.com") = (Normal this, w')
    /\ _pcEnv this = Some (mkPcEnv "mypurecloud.com" "https://apps.mypurecloud.com")
    /\ targetOrigin w' this = Some "https://apps.mypurecloud.com".
Proof.
  apply (query_param_single_value Sample.envUtils Sample.params
           (Cfg.mk (Some (JsString "pcEnvironment")) None None)
           "pcEnvironment" "mypurecloud.com"
           (mkPcEnv "mypurecloud.com" "https://apps.mypurecloud.com")
           (Sample.page "?pcEnvironment=mypurecloud.com"));
    [reflexivity | reflexivity | vm_compute; reflexivity | discriminate
    | vm_compute; reflexivity].
Defined.

(** C6.  In query-param mode, when the named parameter does not occur in
    the page's query string, or occurs more than once, the constructor
    throws and leaves the world as it was. *)
Theorem query_param_absent_or_repeated envUtils params cfg paramName w :
  Cfg.pcEnvironmentQueryParam cfg = Some (JsString paramName) ->
  values_of paramName (params (page_query w)) = []
  \/ (2 <= length (values_of paramName (params (page_query w))))%nat ->
  exists e, constructor envUtils params (ArgObject cfg) w = (Throw e, w).
Proof.
  intros Hq Hv. rewrite constructor_object.
  rewrite (read_cfg_query_param _ _ _ paramName) by done.
  destruct (all_white_space paramName); [by eexists|].
  unfold read_query_param.
  destruct Hv as [Hv|Hv].
  - rewrite (parse_absent _ _ _ Hv). by eexists.
  - rewrite (parse_repeated _ _ _ Hv). by eexists.
Qed.

Lemma query_param_absent_or_repeated_witness :
  exists e,
    constructor Sample.envUtils Sample.params
      (ArgObject (Cfg.mk (Some (JsString "env")) None None))
      (Sample.page "?env=a&env=b") = (Throw e, Sample.page "?env=a&env=b").
Proof.
  apply (query_param_absent_or_repeated Sample.envUtils Sample.params
           (Cfg.mk (Some (JsString "env")) None None) "env"
           (Sample.page "?env=a&env=b")); [reflexivity|].
  right. vm_compute. lia.
Defined.

(** C7.  An empty or all-white-space string as the value of the option in
    force makes the constructor throw, in each of the three modes: for
    [pcEnvironmentQueryParam]; for [pcEnvironment] when the query-param key
    is absent; for [pcOrigin] when both other keys are absent. *)
Theorem blank_value_rejected envUtils params cfg value w :
  all_white_space value = true ->
  Cfg.pcEnvironmentQueryParam cfg = Some (JsString value)
  \/ (Cfg.pcEnvironmentQueryParam cfg = None
      /\ Cfg.pcEnvironment cfg = Some (JsString value))
  \/ (Cfg.pcEnvironmentQueryParam cfg = None
      /\ Cfg.pcEnvironment cfg = None
      /\ Cfg.pcOrigin cfg = Some (JsString value)) ->
  exists e, constructor envUtils params (ArgObject cfg) w = (Throw e, w).
Proof.
  intros Hb Hmode. rewrite constructor_object.
  destruct cfg as [q e o]. simpl in Hmode.
  destruct Hmode as [->|[[-> ->]|(-> & -> & ->)]].
  - rewrite (read_cfg_query_param _ _ _ value), Hb by done. by eexists.
  - unfold read_cfg, Cfg.hasOwnProperty, Cfg.get. simpl.
    rewrite blank_test, Hb. by eexists.
  - unfold read_cfg, Cfg.hasOwnProperty, Cfg.get. simpl.
    rewrite blank_test, Hb. by eexists.
Qed.

Lemma blank_value_rejected_witness :
  exists e,
    constructor Sample.envUtils Sample.params
      (ArgObject (Cfg.mk None None (Some (JsString "   "))))
      (Sample.page "") = (Throw e, Sample.page "").
Proof.
  apply (blank_value_rejected Sample.envUtils Sample.params
           (Cfg.mk None None (Some (JsString "   "))) "   " (Sample.page ""));
    [reflexivity|].
  right; right. split_and!; reflexivity.
Defined.

(** C8.  When the caller supplies none of the three options (an object
    without the three keys, or no object at all), construction succeeds
    with the default environment: the target origin is its [pcAppOrigin]
    and [pcEnvironment] reads its [pcEnvTld]. *)
Theorem default_environment envUtils params arg w :
  no_mode_option arg ->
  exists this w',
    constructor envUtils params arg w = (Normal this, w')
    /\ targetOrigin w' this = Some (pcAppOrigin (DEFAULT_PC_ENV envUtils))
    /\ pcEnvironment this = Some (pcEnvTld (DEFAULT_PC_ENV envUtils)).
Proof.
  intros Hnone.
  assert (constructor envUtils params arg w
          = (Normal (complete envUtils (None, None) w).1,
             (complete envUtils (None, None) w).2)) as ->.
  { destruct arg as [| |[q e o]]; [by apply constructor_no_object; auto..|].
    simpl in Hnone. destruct Hnone as (-> & -> & ->).
    by rewrite constructor_object. }
  eexists _, _. split_and!; [reflexivity| |reflexivity].
  by rewrite targetOrigin_complete.
Qed.

Lemma default_environment_witness :
  exists this w',
    constructor Sample.envUtils Sample.params (ArgObject Cfg.empty)
      (Sample.page "?pcEnvironment=mypurecloud.ie") = (Normal this, w')
    /\ targetOrigin w' this = Some "https://apps.mypurecloud.com"
    /\ pcEnvironment this = Some "mypurecloud.com".
Proof.
  apply (default_environment Sample.envUtils Sample.params (ArgObject Cfg.empty)
           (Sample.page "?pcEnvironment=mypurecloud.ie")).
  split_and!; reflexivity.
Defined.

(** C9, as stated, fails: between the package name and the letter [v]
    there is no space. *)
Lemma about_has_no_space :
  about "purecloud-client-app-sdk" "1.0.0" = "purecloud-client-app-sdkv1.0.0"
  /\ about "purecloud-client-app-sdk" "1.0.0" <> "purecloud-client-app-sdk v1.0.0".
Proof. split; [reflexivity|discriminate]. Qed.

Lemma get_append_head name c rest :
  String.get (String.length name) (name +:+ String c rest) = Some c.
Proof. induction name as [|a name IH]; [reflexivity|exact IH]. Qed.

Lemma substring_append_prefix name rest :
  substring 0 (String.length name) (name +:+ rest) = name.
Proof.
  induction name as [|a name IH]; simpl.
  - by destruct rest.
  - by rewrite IH.
Qed.

Lemma substring_whole s : substring 0 (String.length s) s = s.
Proof. induction s as [|a s IH]; simpl; [done|by rewrite IH]. Qed.

Lemma substring_append_suffix name c rest :
  substring (S (String.length name)) (String.length rest) (name +:+ String c rest)
  = rest.
Proof.
  induction name as [|a name IH]; simpl.
  - apply substring_whole.
  - exact IH.
Qed.

(** C9, amended.  [about()] is the package-name constant, immediately
    followed by the letter [v] and the package-version constant, with no
    separator between the name and the [v]: the name is its prefix, the
    code unit right after the name is [v], and the version is the rest.
    [version] is the package-version constant itself. *)
Theorem about_format name ver :
  about name ver = name +:+ "v" +:+ ver
  /\ substring 0 (String.length name) (about name ver) = name
  /\ String.get (String.length name) (about name ver) = Some "v"%char
  /\ substring (S (String.length name)) (String.length ver) (about name ver) = ver
  /\ version ver = ver.
Proof.
  unfold about, version. split_and!.
  - reflexivity.
  - apply substring_append_prefix.
  - apply get_append_head.
  - apply substring_append_suffix.
  - reflexivity.
Qed.

(** C10.  The mode is chosen by the presence of the key, not by what it
    holds: when the configuration has the key [pcEnvironmentQueryParam]
    with a value that is not a string ([undefined] included), the
    constructor throws the query-param error and creates nothing, whatever
    [pcEnvironment] and [pcOrigin] hold. *)
Theorem query_param_key_presence envUtils params cfg value w :
  Cfg.pcEnvironmentQueryParam cfg = Some value ->
  typeof value <> "string" ->
  constructor envUtils params (ArgObject cfg) w
  = (Throw (mkError "Invalid query param name provided.  Must be non-null, non-empty string"),
     w).
Proof.
  intros Hq Ht. rewrite constructor_object.
  unfold read_cfg, Cfg.hasOwnProperty, Cfg.get. rewrite Hq. simpl.
  by destruct value.
Qed.

Lemma query_param_key_presence_witness :
  constructor Sample.envUtils Sample.params
    (ArgObject (Cfg.mk (Some JsUndefined)
                  (Some (JsString "mypurecloud.com"))
                  (Some (JsString "https://apps.mypurecloud.com"))))
    (Sample.page "")
  = (Throw (mkError "Invalid query param name provided.  Must be non-null, non-empty string"),
     Sample.page "").
Proof.
  apply (query_param_key_presence Sample.envUtils Sample.params
           (Cfg.mk (Some JsUndefined)
              (Some (JsString "mypurecloud.com"))
              (Some (JsString "https://apps.mypurecloud.com")))
           JsUndefined (Sample.page "")); [reflexivity|discriminate].
Defined.

(** * Further properties of the constructor *)

Section Outcome.

Variable envUtils : EnvUtils.
Variable params : string -> list (string * option string).

Lemma constructor_outcome arg w :
  constructor envUtils params arg w
  = match resolution envUtils params arg w with
    | Normal f => (Normal (complete envUtils f w).1, (complete envUtils f w).2)
    | Throw e => (Throw e, w)
    end.
Proof.
  destruct arg as [| |cfg]; [by apply constructor_no_object; auto..|].
  rewrite constructor_object. unfold resolution.
  pose proof (read_cfg_world envUtils params cfg w) as Hw.
  destruct (read_cfg envUtils params cfg w) as [[f|e] w1]; simpl in *; by subst.
Qed.

Lemma read_cfg_environment cfg value w :
  Cfg.pcEnvironmentQueryParam cfg = None ->
  Cfg.pcEnvironment cfg = Some (JsString value) ->
  read_cfg envUtils params cfg w
  = if all_white_space value
    then (Throw (mkError "Invalid pcEnvironment provided.  Must be a non-null, non-empty string"), w)
    else lookup_or_throw envUtils value w.
Proof.
  intros Hq He. unfold read_cfg, Cfg.hasOwnProperty, Cfg.get.
  rewrite Hq, He. simpl. rewrite blank_test.
  by destruct (all_white_space value).
Qed.

Lemma lookup_or_throw_result value w :
  (lookup_or_throw envUtils value w).1
  = match lookupPcEnv envUtils value true with
    | Some env => Normal (Some env, None)
    | None => Throw (mkError ("Could not parse '" +:+ value
                              +:+ "' into a known PureCloud environment"))
    end.
Proof. unfold lookup_or_throw. by destruct (lookupPcEnv envUtils value true). Qed.

Lemma page_query_window w1 w2 : window w1 = window w2 -> page_query w1 = page_query w2.
Proof. unfold page_query. by intros ->. Qed.

Lemma read_cfg_window cfg w1 w2 :
  window w1 = window w2 ->
  (read_cfg envUtils params cfg w1).1 = (read_cfg envUtils params cfg w2).1.
Proof.
  intros Hwin. destruct cfg as [[qp|] env origin].
  - destruct qp; try reflexivity.
    rewrite !(read_cfg_query_param _ _ _ s) by done.
    destruct (all_white_space s); [done|]. unfold read_query_param.
    rewrite (page_query_window w1 w2 Hwin).
    destruct (parse params (page_query w2) !! s) as [[]|]; try reflexivity.
    destruct (truthy _); [|done]. by rewrite !lookup_or_throw_result.
  - destruct env as [env|].
    + destruct env; try reflexivity.
      rewrite !(read_cfg_environment _ s) by done.
      destruct (all_white_space s); [done|]. by rewrite !lookup_or_throw_result.
    + unfold read_cfg, Cfg.hasOwnProperty, Cfg.get. simpl.
      destruct origin as [origin|]; simpl; [|done].
      destruct origin; try reflexivity. by destruct (_ =? _)%nat.
Qed.

Lemma resolution_window arg w1 w2 :
  window w1 = window w2 ->
  resolution envUtils params arg w1 = resolution envUtils params arg w2.
Proof.
  intros Hwin. destruct arg as [| |cfg]; [done..|]. by apply read_cfg_window.
Qed.

End Outcome.

(** X1.  With [pcEnvironment] as the option in force, holding a string
    that is not all white space and that the fuzzy lookup maps to a
    descriptor, construction succeeds: [this._pcEnv] is that descriptor,
    [this._customPcOrigin] stays null, the facades get its [pcAppOrigin]
    and the [pcEnvironment] accessor reads its [pcEnvTld]. *)
Theorem explicit_environment_known envUtils params cfg value env w :
  Cfg.pcEnvironmentQueryParam cfg = None ->
  Cfg.pcEnvironment cfg = Some (JsString value) ->
  all_white_space value = false ->
  lookupPcEnv envUtils value true = Some env ->
  exists this w',
    constructor envUtils params (ArgObject cfg) w = (Normal this, w')
    /\ _pcEnv this = Some env
    /\ _customPcOrigin this = None
    /\ targetOrigin w' this = Some (pcAppOrigin env)
    /\ pcEnvironment this = Some (pcEnvTld env).
Proof.
  intros Hq He Hb Hl.
  assert (read_cfg envUtils params cfg w = (Normal (Some env, None), w)) as Hread.
  { rewrite (read_cfg_environment _ _ _ value), Hb by done.
    unfold lookup_or_throw. by rewrite Hl. }
  eexists _, _. split_and!.
  - rewrite constructor_object, Hread. reflexivity.
  - reflexivity.
  - reflexivity.
  - by rewrite targetOrigin_complete.
  - reflexivity.
Qed.

Lemma explicit_environment_known_witness :
  exists this w',
    constructor Sample.envUtils Sample.params
      (ArgObject (Cfg.mk None (Some (JsString "MyPureCloud.ie")) None))
      (Sample.page "") = (Normal this, w')
    /\ _pcEnv this = Some (mkPcEnv "mypurecloud.ie" "https://apps.mypurecloud.ie")
    /\ _customPcOrigin this = None
    /\ targetOrigin w' this = Some "https://apps.mypurecloud.ie"
    /\ pcEnvironment this = Some "mypurecloud.ie".
Proof.
  apply (explicit_environment_known Sample.envUtils Sample.params
           (Cfg.mk None (Some (JsString "MyPureCloud.ie")) None)
           "MyPureCloud.ie"
           (mkPcEnv "mypurecloud.ie" "https://apps.mypurecloud.ie")
           (Sample.page ""));
    [reflexivity | reflexivity | reflexivity | vm_compute; reflexivity].
Defined.

(** X2.  With [pcEnvironment] as the option in force, holding a string
    that is not all white space and that the fuzzy lookup does not know,
    the constructor throws an error whose message quotes the value, and
    creates nothing. *)
Theorem explicit_environment_unknown envUtils params cfg value w :
  Cfg.pcEnvironmentQueryParam cfg = None ->
  Cfg.pcEnvironment cfg = Some (JsString value) ->
  all_white_space value = false ->
  lookupPcEnv envUtils value true = None ->
  constructor envUtils params (ArgObject cfg) w
  = (Throw (mkError ("Could not parse '" +:+ value
                     +:+ "' into a known PureCloud environment")), w).
Proof.
  intros Hq He Hb Hl. rewrite constructor_object.
  rewrite (read_cfg_environment _ _ _ value), Hb by done.
  unfold lookup_or_throw. by rewrite Hl.
Qed.

Lemma explicit_environment_unknown_witness :
  constructor Sample.envUtils Sample.params
    (ArgObject (Cfg.mk None (Some (JsString "not-a-real-env")) None))
    (Sample.page "")
  = (Throw (mkError "Could not parse 'not-a-real-env' into a known PureCloud environment"),
     Sample.page "").
Proof.
  apply (explicit_environment_unknown Sample.envUtils Sample.params
           (Cfg.mk None (Some (JsString "not-a-real-env")) None)
           "not-a-real-env" (Sample.page ""));
    [reflexivity | reflexivity | reflexivity | vm_compute; reflexivity].
Defined.

(** X3.  In query-param mode, when the named parameter occurs exactly once
    with a non-empty value that the fuzzy lookup does not know, the
    constructor throws an error whose message quotes that value (not the
    parameter name), and creates nothing. *)
Theorem query_param_unknown_environment envUtils params cfg paramName paramValue w :
  Cfg.pcEnvironmentQueryParam cfg = Some (JsString paramName) ->
  all_white_space paramName = false ->
  values_of paramName (params (page_query w)) = [Some paramValue] ->
  paramValue <> "" ->
  lookupPcEnv envUtils paramValue true = None ->
  constructor envUtils params (ArgObject cfg) w
  = (Throw (mkError ("Could not parse '" +:+ paramValue
                     +:+ "' into a known PureCloud environment")), w).
Proof.
  intros Hq Hb Hv Hne Hl. rewrite constructor_object.
  rewrite (read_cfg_query_param _ _ _ paramName), Hb by done.
  unfold read_query_param. rewrite (parse_single _ _ _ _ Hv). simpl.
  destruct paramValue; [done|]. simpl. unfold lookup_or_throw. by rewrite Hl.
Qed.

Lemma query_param_unknown_environment_witness :
  constructor Sample.envUtils Sample.params
    (ArgObject (Cfg.mk (Some (JsString "env")) None None))
    (Sample.page "?env=example.org")
  = (Throw (mkError "Could not parse 'example.org' into a known PureCloud environment"),
     Sample.page "?env=example.org").
Proof.
  apply (query_param_unknown_environment Sample.envUtils Sample.params
           (Cfg.mk (Some (JsString "env")) None None)
           "env" "example.org" (Sample.page "?env=example.org"));
    [reflexivity | reflexivity | vm_compute; reflexivity | discriminate
    | vm_compute; reflexivity].
Defined.

(** X4.  A value that is not a string under the key of the option in
    force is rejected with the message of that option: for
    [pcEnvironment] when the query-param key is absent, and for
    [pcOrigin] when both other keys are absent ([null], [undefined],
    numbers and objects alike). *)
Theorem non_string_option_rejected envUtils params cfg value msg w :
  Cfg.pcEnvironmentQueryParam cfg = None ->
  typeof value <> "string" ->
  (Cfg.pcEnvironment cfg = Some value
   /\ msg = "Invalid pcEnvironment provided.  Must be a non-null, non-empty string")
  \/ (Cfg.pcEnvironment cfg = None
      /\ Cfg.pcOrigin cfg = Some value
      /\ msg = "Invalid pcOrigin provided.  Must be a non-null, non-empty string") ->
  constructor envUtils params (ArgObject cfg) w = (Throw (mkError msg), w).
Proof.
  intros Hq Ht Hmode. rewrite constructor_object.
  unfold read_cfg, Cfg.hasOwnProperty, Cfg.get. rewrite Hq.
  destruct Hmode as [[-> ->]|(-> & -> & ->)]; simpl; by destruct value.
Qed.

Lemma non_string_option_rejected_witness :
  constructor Sample.envUtils Sample.params
    (ArgObject (Cfg.mk None None (Some JsNull))) (Sample.page "")
  = (Throw (mkError "Invalid pcOrigin provided.  Must be a non-null, non-empty string"),
     Sample.page "").
Proof.
  apply (non_string_option_rejected Sample.envUtils Sample.params
           (Cfg.mk None None (Some JsNull)) JsNull
           "Invalid pcOrigin provided.  Must be a non-null, non-empty string"
           (Sample.page "")); [reflexivity | discriminate |].
  right. split_and!; reflexivity.
Defined.

(** X5.  In query-param mode with a name that is not all white space, the
    constructor throws "Could not find unique value" for that name in
    every case but one: unless the parameter occurs exactly once with a
    non-empty value.  This covers an absent parameter, a repeated one, one
    written without [=] and one with an empty value. *)
Theorem query_param_no_unique_value envUtils params cfg paramName w :
  Cfg.pcEnvironmentQueryParam cfg = Some (JsString paramName) ->
  all_white_space paramName = false ->
  (forall paramValue,
      values_of paramName (params (page_query w)) = [Some paramValue] ->
      paramValue = "") ->
  constructor envUtils params (ArgObject cfg) w
  = (Throw (mkError ("Could not find unique value for " +:+ paramName
                     +:+ " parameter on Query String")), w).
Proof.
  intros Hq Hb Hv. rewrite constructor_object.
  rewrite (read_cfg_query_param _ _ _ paramName), Hb by done.
  unfold read_query_param.
  destruct (values_of paramName (params (page_query w))) as [|v1 [|v2 values]] eqn:E.
  - by rewrite (parse_absent _ _ _ E).
  - rewrite (parse_single _ _ _ _ E). destruct v1 as [v|]; [|done].
    by rewrite (Hv v eq_refl).
  - rewrite parse_repeated; [done|]. rewrite E. simpl. lia.
Qed.

Lemma query_param_no_unique_value_witness :
  constructor Sample.envUtils Sample.params
    (ArgObject (Cfg.mk (Some (JsString "env")) None None))
    (Sample.page "?env=&other=mypurecloud.com")
  = (Throw (mkError "Could not find unique value for env parameter on Query String"),
     Sample.page "?env=&other=mypurecloud.com").
Proof.
  apply (query_param_no_unique_value Sample.envUtils Sample.params
           (Cfg.mk (Some (JsString "env")) None None) "env"
           (Sample.page "?env=&other=mypurecloud.com"));
    [reflexivity | reflexivity |].
  intros paramValue H. vm_compute in H. by injection H as <-.
Defined.

Lemma lookup_or_throw_error envUtils value w e w' :
  lookup_or_throw envUtils value w = (Throw e, w') ->
  constructor_error (message e).
Proof.
  unfold lookup_or_throw.
  destruct (lookupPcEnv envUtils value true); [discriminate|].
  intros [= <- _]. constructor.
Qed.

(** X6.  The errors the constructor raises with its own [throw]
    statements, for an argument of the declared type (nothing, [null], or
    an ordinary object) on a page where [window] is bound: such an error
    is raised only when the argument is an object holding at least one of
    the three keys, its message is one of the five messages of those
    statements, and it is raised before anything is created, so the world
    is then as it was.  What the runtime itself would raise on other
    inputs (calling [hasOwnProperty] on an object that lacks it, reading an
    unbound [window]) lies outside the argument and world types and is not
    covered. *)
Theorem constructor_own_errors envUtils params arg w e w' :
  constructor envUtils params arg w = (Throw e, w') ->
  w' = w
  /\ constructor_error (message e)
  /\ ~ no_mode_option arg.
Proof.
  rewrite constructor_outcome.
  destruct (resolution envUtils params arg w) as [f|e0] eqn:Hres; [discriminate|].
  intros [= -> <-]. split; [done|].
  destruct arg as [| |cfg]; [discriminate..|]. unfold resolution in Hres.
  destruct (read_cfg envUtils params cfg w) as [r w1] eqn:Hread.
  simpl in Hres. subst r. revert Hread.
  destruct cfg as [[qp|] env origin].
  - intros Hread. split; [|by intros [? _]]. revert Hread.
    destruct qp; try (intros [= <- _]; constructor).
    rewrite (read_cfg_query_param _ _ _ s) by done.
    destruct (all_white_space s); [intros [= <- _]; constructor|].
    unfold read_query_param.
    destruct (parse params (page_query w) !! s) as [[]|];
      try (intros [= <- _]; constructor).
    destruct (truthy _); [apply lookup_or_throw_error|].
    intros [= <- _]. constructor.
  - destruct env as [env|].
    + intros Hread. split; [|by intros (_ & ? & _)]. revert Hread.
      destruct env; try (intros [= <- _]; constructor).
      rewrite (read_cfg_environment _ _ _ s) by done.
      destruct (all_white_space s); [intros [= <- _]; constructor|].
      apply lookup_or_throw_error.
    + unfold read_cfg, Cfg.hasOwnProperty, Cfg.get. simpl.
      destruct origin as [origin|]; simpl; [|discriminate].
      intros Hread. split; [|by intros (_ & _ & ?)]. revert Hread.
      destruct origin; try (intros [= <- _]; constructor).
      destruct (_ =? _)%nat; [|discriminate]. intros [= <- _]. constructor.
Qed.

Lemma constructor_own_errors_witness :
  Sample.page "?env=a&env=b" = Sample.page "?env=a&env=b"
  /\ constructor_error
       (message (mkError "Could not find unique value for env parameter on Query String"))
  /\ ~ no_mode_option (ArgObject (Cfg.mk (Some (JsString "env")) None None)).
Proof.
  apply (constructor_own_errors Sample.envUtils Sample.params
           (ArgObject (Cfg.mk (Some (JsString "env")) None None))
           (Sample.page "?env=a&env=b")).
  vm_compute. reflexivity.
Defined.

(** X7.  On success the [pcEnvironment] accessor tells where the target
    origin came from.  When it reads a domain, that is the [pcEnvTld] of
    the descriptor in [this._pcEnv], whose [pcAppOrigin] the facades were
    given, and no custom origin is kept.  When it reads null, the facades
    were given the custom origin, which is then a string. *)
Theorem pcEnvironment_reflects_source envUtils params arg w this w' :
  constructor envUtils params arg w = (Normal this, w') ->
  match pcEnvironment this with
  | Some tld =>
      exists env, _pcEnv this = Some env
                  /\ pcEnvTld env = tld
                  /\ targetOrigin w' this = Some (pcAppOrigin env)
                  /\ _customPcOrigin this = None
  | None =>
      exists origin, _customPcOrigin this = Some origin
                     /\ targetOrigin w' this = Some origin
  end.
Proof.
  intros (f & -> & -> & Hf)%constructor_normal.
  assert ((exists env, f = (Some env, None))
          \/ (exists origin, f = (None, Some origin) /\ all_white_space origin = false)
          \/ f = (None, None)) as Hcases.
  { destruct arg as [| |cfg]; [by right; right|by right; right|].
    apply read_cfg_normal in Hf as [(env & ? & ? & _)|[(o & ? & _ & _ & _ & ?)|[? _]]].
    - left. by exists env.
    - right; left. by exists o.
    - by right; right. }
  rewrite targetOrigin_complete.
  destruct Hcases as [(env & ->)|[(origin & -> & Hb)| ->]].
  - simpl. by exists env.
  - pose proof (not_all_white_space_truthy origin Hb) as Ht.
    unfold pcEnvironment, complete. simpl in *. rewrite Ht. simpl. by exists origin.
  - simpl. by eexists.
Qed.

Lemma pcEnvironment_reflects_source_witness :
  exists this w',
    constructor Sample.envUtils Sample.params
      (ArgObject (Cfg.mk None None (Some (JsString "https://example-host.test"))))
      (Sample.page "") = (Normal this, w')
    /\ match pcEnvironment this with
       | Some tld =>
           exists env, _pcEnv this = Some env
                       /\ pcEnvTld env = tld
                       /\ targetOrigin w' this = Some (pcAppOrigin env)
                       /\ _customPcOrigin this = None
       | None =>
           exists origin, _customPcOrigin this = Some origin
                          /\ targetOrigin w' this = Some origin
       end.
Proof.
  eexists. eexists. split; [vm_compute; reflexivity|].
  apply (pcEnvironment_reflects_source Sample.envUtils Sample.params
           (ArgObject (Cfg.mk None None (Some (JsString "https://example-host.test"))))
           (Sample.page "")).
  vm_compute. reflexivity.
Defined.

(** X8.  Two constructions in a row share nothing: each instance has its
    seven facades on a configuration object of its own, the two objects
    are distinct, the second construction leaves the origin of the first
    instance as it was, and the world holds the fourteen facades in the
    order they were created. *)
Theorem constructions_share_no_configuration envUtils params arg1 arg2 w this1 w1 this2 w2 :
  constructor envUtils params arg1 w = (Normal this1, w1) ->
  constructor envUtils params arg2 w1 = (Normal this2, w2) ->
  exists r1 r2,
    r1 <> r2
    /\ facades_of this1 = facade_set r1
    /\ facades_of this2 = facade_set r2
    /\ targetOrigin w2 this1 = targetOrigin w1 this1
    /\ instances w2 = (instances w ++ facade_set r1 ++ facade_set r2)%list.
Proof.
  intros (f1 & -> & -> & _)%constructor_normal (f2 & -> & -> & _)%constructor_normal.
  exists (length (heap w)), (length (heap (complete envUtils f1 w).2)).
  split_and!.
  - unfold complete. simpl. rewrite length_app. simpl. lia.
  - reflexivity.
  - reflexivity.
  - unfold targetOrigin, complete. simpl.
    rewrite <- app_assoc. simpl. by rewrite !list_lookup_middle.
  - unfold complete. simpl. by rewrite <- app_assoc.
Qed.

Lemma constructions_share_no_configuration_witness :
  exists this1 w1 this2 w2,
    constructor Sample.envUtils Sample.params ArgUndefined (Sample.page "")
    = (Normal this1, w1)
    /\ constructor Sample.envUtils Sample.params
         (ArgObject (Cfg.mk None None (Some (JsString "https://example-host.test"))))
         w1 = (Normal this2, w2)
    /\ exists r1 r2,
        r1 <> r2
        /\ facades_of this1 = facade_set r1
        /\ facades_of this2 = facade_set r2
        /\ targetOrigin w2 this1 = targetOrigin w1 this1
        /\ instances w2 = (instances (Sample.page "") ++ facade_set r1 ++ facade_set r2)%list.
Proof.
  eexists. eexists. eexists. eexists.
  split; [vm_compute; reflexivity|]. split; [vm_compute; reflexivity|].
  apply (constructions_share_no_configuration Sample.envUtils Sample.params
           ArgUndefined
           (ArgObject (Cfg.mk None None (Some (JsString "https://example-host.test"))))
           (Sample.page "")); vm_compute; reflexivity.
Defined.

(** X9.  A construction reads the configuration and the page, and nothing
    else: in two worlds with the same window, whatever objects and facades
    they already hold, the same argument either throws the same error in
    both or succeeds in both with the same private fields, the same
    [pcEnvironment] and the same target origin. *)
Theorem construction_reads_only_the_page envUtils params arg w1 w2 :
  window w1 = window w2 ->
  match constructor envUtils params arg w1, constructor envUtils params arg w2 with
  | (Normal this1, w1'), (Normal this2, w2') =>
      _pcEnv this1 = _pcEnv this2
      /\ _customPcOrigin this1 = _customPcOrigin this2
      /\ pcEnvironment this1 = pcEnvironment this2
      /\ targetOrigin w1' this1 = targetOrigin w2' this2
  | (Throw e1, _), (Throw e2, _) => e1 = e2
  | _, _ => False
  end.
Proof.
  intros Hwin. rewrite !constructor_outcome.
  rewrite (resolution_window envUtils params arg w1 w2 Hwin).
  destruct (resolution envUtils params arg w2) as [f|e]; [|done].
  split_and!; try reflexivity. by rewrite !targetOrigin_complete.
Qed.

Lemma construction_reads_only_the_page_witness :
  match constructor Sample.envUtils Sample.params
          (ArgObject (Cfg.mk (Some (JsString "env")) None None))
          (Sample.page "?env=mypurecloud.de"),
        constructor Sample.envUtils Sample.params
          (ArgObject (Cfg.mk (Some (JsString "env")) None None))
          (mkWorld (Some (mkWindow (Some (mkLocation "?env=mypurecloud.de"))))
             [mkApiCfg (Some "https://example-host.test")]
             (facade_set 0))
  with
  | (Normal this1, w1'), (Normal this2, w2') =>
      _pcEnv this1 = _pcEnv this2
      /\ _customPcOrigin this1 = _customPcOrigin this2
      /\ pcEnvironment this1 = pcEnvironment this2
      /\ targetOrigin w1' this1 = targetOrigin w2' this2
  | (Throw e1, _), (Throw e2, _) => e1 = e2
  | _, _ => False
  end.
Proof.
  apply (construction_reads_only_the_page Sample.envUtils Sample.params
           (ArgObject (Cfg.mk (Some (JsString "env")) None None))
           (Sample.page "?env=mypurecloud.de")
           (mkWorld (Some (mkWindow (Some (mkLocation "?env=mypurecloud.de"))))
              [mkApiCfg (Some "https://example-host.test")]
              (facade_set 0))).
  reflexivity.
Defined.

(** X10.  [_getQueryString] yields null when the window or its location is
    missing.  In query-param mode with a name that is not all white space,
    a page for which it yields null or the empty string makes the
    constructor throw "Could not find unique value", provided the library
    finds no parameter in the empty string. *)
Theorem query_param_without_query_string envUtils params cfg paramName w :
  Cfg.pcEnvironmentQueryParam cfg = Some (JsString paramName) ->
  all_white_space paramName = false ->
  params "" = [] ->
  _getQueryString w = (Normal None, w) \/ _getQueryString w = (Normal (Some ""), w) ->
  constructor envUtils params (ArgObject cfg) w
  = (Throw (mkError ("Could not find unique value for " +:+ paramName
                     +:+ " parameter on Query String")), w).
Proof.
  intros Hq Hb Hempty Hqs.
  assert (page_query w = "") as Hpage.
  { unfold _getQueryString, page_query in *.
    destruct (window w) as [[[[s]|]]|]; [|done..].
    destruct Hqs as [Hqs|Hqs]; by injection Hqs. }
  rewrite constructor_object.
  rewrite (read_cfg_query_param _ _ _ paramName), Hb by done.
  unfold read_query_param. rewrite Hpage.
  rewrite parse_absent; [done|]. by rewrite Hempty.
Qed.

Lemma query_param_without_query_string_witness :
  constructor Sample.envUtils Sample.params
    (ArgObject (Cfg.mk (Some (JsString "pcEnvironment")) None None))
    (mkWorld (Some (mkWindow None)) [] [])
  = (Throw (mkError "Could not find unique value for pcEnvironment parameter on Query String"),
     mkWorld (Some (mkWindow None)) [] []).
Proof.
  apply (query_param_without_query_string Sample.envUtils Sample.params
           (Cfg.mk (Some (JsString "pcEnvironment")) None None)
           "pcEnvironment" (mkWorld (Some (mkWindow None)) [] []));
    [reflexivity | reflexivity | reflexivity | left; reflexivity].
Defined.

(** * The manifest script *)

Lemma replace_first_unfold pattern replacement s :
  replace_first pattern replacement s
  = if String.prefix pattern s
    then replacement +:+ drop_string (String.length pattern) s
    else match s with
         | EmptyString => EmptyString
         | String c s' => String c (replace_first pattern replacement s')
         end.
Proof. by destruct s. Qed.

Lemma prefix_append pattern rest : String.prefix pattern (pattern +:+ rest) = true.
Proof.
  apply prefix_correct. apply substring_append_prefix.
Qed.

Lemma drop_string_append pattern rest :
  drop_string (String.length pattern) (pattern +:+ rest) = rest.
Proof. induction pattern as [|a pattern IH]; [reflexivity|exact IH]. Qed.

(** Where the pattern leads the string, it is what gets replaced, whatever
    follows it. *)
Lemma replace_first_leading pattern replacement rest :
  replace_first pattern replacement (pattern +:+ rest) = replacement +:+ rest.
Proof.
  by rewrite replace_first_unfold, prefix_append, drop_string_append.
Qed.

(** Without an occurrence of the pattern the string is returned as it is. *)
Lemma replace_first_absent pattern replacement s :
  occurs pattern s = false -> replace_first pattern replacement s = s.
Proof.
  induction s as [|c s IH]; rewrite replace_first_unfold; simpl.
  - intros H%orb_false_elim. by rewrite (proj1 H).
  - intros [Hp Hs]%orb_false_elim. rewrite Hp. by rewrite IH.
Qed.

Section ScriptProperties.

Import CreateManifest.

Variable manifest_path : string.

(** X11.  When one of the three required variables is unset or empty, the
    script throws an error that names the first such variable in the order
    WEB_APP_NAME, WEB_APP_VERSION, BUILD_NUMBER, and writes nothing. *)
Theorem script_names_first_unset_variable p var :
  first_unset (env p) = Some var ->
  create_manifest manifest_path p
  = (Throw (mkError (var +:+ " environment variable not set")), p).
Proof.
  unfold first_unset, required, create_manifest. simpl.
  destruct (truthy_string (env p !! "WEB_APP_NAME")); simpl;
    [|by intros [= <-]].
  destruct (truthy_string (env p !! "WEB_APP_VERSION")); simpl;
    [|by intros [= <-]].
  destruct (truthy_string (env p !! "BUILD_NUMBER")); simpl;
    [discriminate|by intros [= <-]].
Qed.

(** X12.  When the three required variables are set and not empty, the
    script completes and leaves at the manifest path an object whose
    [name], [version] and [build] are the values of WEB_APP_NAME,
    WEB_APP_VERSION and BUILD_NUMBER, whose [buildDate] is the current
    instant and which lists one index file per html file found, replacing
    whatever was at that path and touching no other file. *)
Theorem script_writes_manifest p :
  first_unset (env p) = None ->
  exists manifest p',
    create_manifest manifest_path p = (Normal tt, p')
    /\ json_files p' !! manifest_path = Some manifest
    /\ (forall other, other <> manifest_path ->
                      json_files p' !! other = json_files p !! other)
    /\ env p !! "WEB_APP_NAME" = Some (name manifest)
    /\ env p !! "WEB_APP_VERSION" = Some (version manifest)
    /\ env p !! "BUILD_NUMBER" = Some (build manifest)
    /\ buildDate manifest = now p
    /\ length (indexFiles manifest) = length (examples_html p).
Proof.
  unfold first_unset, required, create_manifest. simpl.
  destruct (env p !! "WEB_APP_NAME") as [[|a n]|]; simpl; try discriminate.
  destruct (env p !! "WEB_APP_VERSION") as [[|b v]|]; simpl; try discriminate.
  destruct (env p !! "BUILD_NUMBER") as [[|c d]|]; simpl; try discriminate.
  intros _. eexists _, _. split; [reflexivity|].
  split; [simpl; by rewrite lookup_insert_eq|].
  split_and!; try reflexivity.
  - intros other Hne. simpl. by rewrite lookup_insert_ne.
  - apply length_fmap.
Qed.

(** X13.  In the manifest the script writes, the entry of each html file
    keeps the position the file had in the glob's result; a path that
    begins with [examples/] is listed without that leading directory, and
    only without it (a later [examples/] in the path stays); a path in which
    [examples/] does not occur is listed as it is. *)
Theorem script_index_files p p' :
  create_manifest manifest_path p = (Normal tt, p') ->
  exists manifest,
    json_files p' !! manifest_path = Some manifest
    /\ (forall i rest,
           examples_html p !! i = Some ("examples/" +:+ rest) ->
           indexFiles manifest !! i = Some (mkIndexFile rest))
    /\ (forall i path,
           examples_html p !! i = Some path ->
           occurs "examples/" path = false ->
           indexFiles manifest !! i = Some (mkIndexFile path)).
Proof.
  unfold create_manifest.
  repeat (destruct (negb _); [discriminate|]).
  intros [= <-]. eexists. split; [simpl; by rewrite lookup_insert_eq|].
  cbn [indexFiles]. split.
  - intros i rest Hi. rewrite list_lookup_fmap, Hi. simpl.
    unfold index_file. by rewrite (replace_first_leading "examples/" "" rest).
  - intros i path Hi Hocc. rewrite list_lookup_fmap, Hi. simpl.
    unfold index_file. by rewrite replace_first_absent.
Qed.

End ScriptProperties.

Lemma script_names_first_unset_variable_witness :
  CreateManifest.create_manifest "dist-examples/manifest.json"
    (CreateManifest.mkProcess
       (<["BUILD_NUMBER" := "17"]> (<["WEB_APP_NAME" := "client-app-sdk"]> ∅))
       "2019-03-01T10:00:00.000Z" ["examples/index.html"] ∅)
  = (Throw (mkError "WEB_APP_VERSION environment variable not set"),
     CreateManifest.mkProcess
       (<["BUILD_NUMBER" := "17"]> (<["WEB_APP_NAME" := "client-app-sdk"]> ∅))
       "2019-03-01T10:00:00.000Z" ["examples/index.html"] ∅).
Proof.
  apply (script_names_first_unset_variable "dist-examples/manifest.json"
           (CreateManifest.mkProcess
              (<["BUILD_NUMBER" := "17"]> (<["WEB_APP_NAME" := "client-app-sdk"]> ∅))
              "2019-03-01T10:00:00.000Z" ["examples/index.html"] ∅)
           "WEB_APP_VERSION").
  vm_compute. reflexivity.
Defined.

Lemma script_writes_manifest_witness :
  exists manifest p',
    CreateManifest.create_manifest "dist-examples/manifest.json"
      CreateManifest.example_build = (Normal tt, p')
    /\ CreateManifest.json_files p' !! "dist-examples/manifest.json" = Some manifest
    /\ (forall other,
           other <> "dist-examples/manifest.json" ->
           CreateManifest.json_files p' !! other
           = CreateManifest.json_files CreateManifest.example_build !! other)
    /\ CreateManifest.env CreateManifest.example_build !! "WEB_APP_NAME"
       = Some (CreateManifest.name manifest)
    /\ CreateManifest.env CreateManifest.example_build !! "WEB_APP_VERSION"
       = Some (CreateManifest.version manifest)
    /\ CreateManifest.env CreateManifest.example_build !! "BUILD_NUMBER"
       = Some (CreateManifest.build manifest)
    /\ CreateManifest.buildDate manifest
       = CreateManifest.now CreateManifest.example_build
    /\ length (CreateManifest.indexFiles manifest)
       = length (CreateManifest.examples_html CreateManifest.example_build).
Proof.
  apply (script_writes_manifest "dist-examples/manifest.json"
           CreateManifest.example_build).
  vm_compute. reflexivity.
Defined.

Lemma script_index_files_witness :
  exists p',
    CreateManifest.create_manifest "dist-examples/manifest.json"
      CreateManifest.example_build = (Normal tt, p')
    /\ exists manifest,
        CreateManifest.json_files p' !! "dist-examples/manifest.json" = Some manifest
        /\ (forall i rest,
               CreateManifest.examples_html CreateManifest.example_build !! i
               = Some ("examples/" +:+ rest) ->
               CreateManifest.indexFiles manifest !! i
               = Some (CreateManifest.mkIndexFile rest))
        /\ (forall i path,
               CreateManifest.examples_html CreateManifest.example_build !! i
               = Some path ->
               occurs "examples/" path = false ->
               CreateManifest.indexFiles manifest !! i
               = Some (CreateManifest.mkIndexFile path)).
Proof.
  eexists. split; [vm_compute; reflexivity|].
  apply (script_index_files "dist-examples/manifest.json"
           CreateManifest.example_build).
  vm_compute. reflexivity.
Defined.
